(** * Digital spirometer simulator: prediction, breath simulation, interpretation

    A shallow embedding of the three engine functions of
    [spirometer_final.py] and the properties of its specification:

    - [calculate_spirometry] (the predictor),
    - [simulate_breath]      (the breath simulator),
    - [interpret_results]    (the interpreter).

    Numbers.  The program computes with floating-point numbers.  They are
    embedded as exact rationals [Q]: every arithmetic operation of the
    source is the corresponding exact operation, decimal literals denote
    the decimal fraction they spell, and rounding, infinities and NaN are
    outside the model.  Equality of computed numbers is [Qeq] ([==]).
    The one place where the program's behaviour turns on an infinity or a
    NaN, the division by a zero [fvc] in the interpreter, is embedded a
    second time on binary64 numbers ([NumPy.interpret_results]).

    Library code.  [np.exp] is a parameter of the development
    (any function [Q -> Q]); the global generator behind [np.random] is an
    abstract state threaded through the run; [np.linspace], [np.trapz],
    [np.zeros] and array slicing are modelled from NumPy's documentation.

    Strings are ASCII strings; [str.lower] maps [A-Z] to [a-z]. *)

From Stdlib Require Import QArith Qround Lqa ZArith String Ascii Lia Floats.
From stdpp Require Import list.

Open Scope Q_scope.

(** ** Python numbers and strings *)

(** [x >= y] and [x > y] on numbers. *)
Definition Qgeb (x y : Q) : bool := Qle_bool y x.
Definition Qgtb (x y : Q) : bool := negb (Qle_bool x y).

(** The builtin [max(a, b)]: the first argument is kept unless the second
    is strictly greater. *)
Definition py_max (a b : Q) : Q := if Qgtb b a then b else a.

(** [int(x)] on a number: truncation towards zero. *)
Definition py_int (x : Q) : Z := Z.quot (Qnum x) (Z.pos (Qden x)).

(** An integer used as a number. *)
Definition of_nat (i : nat) : Q := inject_Z (Z.of_nat i).

(** [str.lower()] on ASCII. *)
Definition lower_ascii (c : ascii) : ascii :=
  let n := N_of_ascii c in
  if ((65 <=? n) && (n <=? 90))%N then ascii_of_N (n + 32) else c.

Fixpoint lower (s : string) : string :=
  match s with
  | EmptyString => EmptyString
  | String c s' => String (lower_ascii c) (lower s')
  end.

(** Exceptions the engine can raise, and results of fallible calls. *)
Inductive exn : Type := ZeroDivisionError.

Inductive result (A : Type) : Type :=
| Ok (a : A)
| Raise (e : exn).
Arguments Ok {A} a.
Arguments Raise {A} e.

(** True division [x / y] of two Python numbers ([float] or [int]): a zero
    divisor raises.  NumPy scalars divide differently, see
    [NumPy.interpret_results]. *)
Definition py_div (x y : Q) : result Q :=
  if Qeq_bool y 0 then Raise ZeroDivisionError else Ok (x / y).

(** ** Predictor: [calculate_spirometry] *)

(** The sex-specific regression, lines 11-16. *)
Definition regression (age height : Q) (sex : string) : Q * Q :=
  if (lower sex =? "male")%string then
    (0.052 * height - 0.022 * age - 3.60,
     0.041 * height - 0.018 * age - 2.69)
  else
    (0.041 * height - 0.018 * age - 2.69,
     0.034 * height - 0.013 * age - 1.74).

(** The values held by [fvc_pred] and [fev1_pred] when line 22 is reached:
    the regression followed by the smoker adjustment of lines 18-20. *)
Definition pre_floor (age height : Q) (sex : string) (smoker : bool) : Q * Q :=
  let '(fvc_pred, fev1_pred) := regression age height sex in
  if smoker then (fvc_pred * 0.9, fev1_pred * 0.85)
  else (fvc_pred, fev1_pred).

Definition calculate_spirometry
    (age height : Q) (sex : string) (smoker : bool) : Q * Q :=
  let '(fvc_pred, fev1_pred) := pre_floor age height sex smoker in
  (py_max fvc_pred 1.5, py_max fev1_pred 1.0).

(** ** Interpreter: [interpret_results] *)

Definition Normal : string := "Normal Lung Function".
Definition MildObstruction : string := "Mild Obstruction".
Definition SevereObstruction : string := "Severe Obstruction".

Definition interpret_results (fvc fev1 : Q) : result string :=
  match py_div fev1 fvc with
  | Raise e => Raise e
  | Ok ratio =>
      if Qgeb ratio 0.7 then Ok Normal
      else if Qgeb ratio 0.5 then Ok MildObstruction
      else Ok SevereObstruction
  end.

(** *** The interpreter on NumPy scalars

    [np.trapz] returns [np.float64] scalars, and these are what the program
    passes to [interpret_results] (lines 146-151).  On them [/] is the
    IEEE 754 binary64 division: a zero divisor gives an infinity or NaN
    (NumPy emits a warning) and no exception is raised.  [>=] is the IEEE
    comparison, false when an operand is NaN.  The literal [0.7] is the
    binary64 number nearest to 7/10. *)
Module NumPy.

Definition interpret_results (fvc fev1 : float) : result string :=
  let ratio := (fev1 / fvc)%float in
  if (0x1.6666666666666p-1 <=? ratio)%float then Ok Normal
  else if (0.5 <=? ratio)%float then Ok MildObstruction
  else Ok SevereObstruction.

End NumPy.

(** ** NumPy arrays *)

(** Arrays are lists.  [a[i]] with [i] in range; the loop only reads
    indices below the length of the array. *)
Definition get (a : list Q) (i : nat) : Q := default 0 (a !! i).

(** [np.zeros(n)]. *)
Definition zeros (n : nat) : list Q := replicate n 0.

(** [np.linspace(start, stop, num)] with the default [endpoint=True]:
    [num] evenly spaced samples [start + i * step], [step = (stop - start) /
    (num - 1)], the last one set to [stop]. *)
Definition linspace (start stop : Q) (num : nat) : list Q :=
  let div := (num - 1)%nat in
  let step := (stop - start) / of_nat div in
  let y := map (fun i => of_nat i * step + start) (seq 0 num) in
  if (1 <? num)%nat then <[div := stop]> y else y.

(** [np.diff(x)]: [x[1:] - x[:-1]]. *)
Definition diff (x : list Q) : list Q :=
  zip_with Qminus (drop 1 x) (take (length x - 1) x).

(** [a.sum()]. *)
Definition Qsum (a : list Q) : Q := foldr Qplus 0 a.

(** [np.trapz(y, x)]: [(d * (y[1:] + y[:-1]) / 2.0).sum()] with
    [d = np.diff(x)].  Both arguments have the same length at every call of
    the program. *)
Definition trapz (y x : list Q) : Q :=
  let d := diff x in
  let s := zip_with Qplus (drop 1 y) (take (length y - 1) y) in
  Qsum (zip_with (fun di si => di * si / 2.0) d s).

(** The composite trapezoidal rule as the specification words it: the sum
    over consecutive samples of (width) x (mean height). *)
Fixpoint trapezoid_rule (y x : list Q) : Q :=
  match y, x with
  | y0 :: ((y1 :: _) as y'), x0 :: ((x1 :: _) as x') =>
      (x1 - x0) * ((y0 + y1) / 2) + trapezoid_rule y' x'
  | _, _ => 0
  end.

(** ** Breath simulator: [simulate_breath] *)

(** What the simulator does to its display collaborators, in program
    order.  The label variables receive formatted text in the source; the
    event records the number that is formatted. *)
Inductive event : Type :=
| AxClear
| TimeVarSet (x : Q)
| FlowVarSet (x : Q)
| VolumeVarSet (x : Q)
| AxPlot (xs ys : list Q)
| AxFillBetween (xs : list Q) (y1 : Q) (y2 : list Q)
| AxSetXlabel (s : string)
| AxSetYlabel (s : string)
| AxSetTitle (s : string)
| AxGrid (b : bool)
| CanvasDraw
| Sleep (secs : Q).

Definition total_points : nat := 120.

(** Line 30. *)
Definition time_grid : list Q := linspace 0 6 total_points.

Section Simulator.

(** [np.exp]. *)
Variable exp : Q -> Q.

(** The global generator of [np.random]: its state, [rand()] and
    [normal(loc, scale)]. *)
Variable G : Type.
Variable rand : G -> Q * G.
Variable normal : Q -> Q -> G -> Q * G.

(** The mutable state of a run: generator, the two arrays, and the
    display events issued so far. *)
Record sim : Type := Sim {
  rng : G;
  flow : list Q;
  volume : list Q;
  log : list event
}.

(** Lines 34-35: the two draws made once, before the loop. *)
Definition draw_shape (fvc_pred : Q) (g : G) : Q * Q * G :=
  let '(u, g1) := rand g in
  let peak_flow := fvc_pred * (0.8 + 0.4 * u) in
  let '(u2, g2) := rand g1 in
  let decay := 2.5 + u2 in
  (peak_flow, decay, g2).

(** One iteration of the loop, lines 38-58. *)
Definition body (t : list Q) (peak_flow decay : Q) (st : sim) (i : nat)
  : sim :=
  let flow1 :=
    <[i := (peak_flow * (of_nat i / of_nat total_points))
           * exp (- decay * of_nat i / of_nat total_points)]> (flow st) in
  let '(noise, g1) := normal 0 0.03 (rng st) in
  let flow2 := <[i := get flow1 i + noise]> flow1 in
  let volume1 :=
    if (0 <? i)%nat
    then <[i := trapz (take (i + 1) flow2) (take (i + 1) t)]> (volume st)
    else volume st in
  let log1 :=
    if (i mod 20 =? 0)%nat
    then log st ++ [TimeVarSet (get t i);
                    FlowVarSet (get flow2 i);
                    VolumeVarSet (get volume1 i)]
    else log st in
  let log2 :=
    log1 ++ [AxClear;
             AxPlot (take (i + 1) t) (take (i + 1) flow2);
             AxFillBetween (take (i + 1) t) 0 (take (i + 1) flow2);
             AxSetXlabel "Time (s)";
             AxSetYlabel "Flow (L/s)";
             AxSetTitle "Real-Time Spirometry Flow";
             AxGrid true;
             CanvasDraw;
             Sleep 0.02] in
  Sim g1 flow2 volume1 log2.

(** Lines 28-58: the state when the loop has finished. *)
Definition breath_loop (fvc_pred : Q) (g : G) : sim :=
  let t := time_grid in
  let '(peak_flow, decay, g2) := draw_shape fvc_pred g in
  fold_left (body t peak_flow decay) (seq 0 total_points)
            (Sim g2 (zeros total_points) (zeros total_points) [AxClear]).

(** Lines 60-63.  The result is [(fvc_measured, fev1_measured)]. *)
Definition measure (st : sim) : Q * Q :=
  let t := time_grid in
  let n := Z.to_nat (py_int (of_nat total_points / 6)) in
  let fev1_measured := trapz (take n (flow st)) (take n t) in
  let fvc_measured := trapz (flow st) t in
  (fvc_measured, fev1_measured).

Definition simulate_breath (fvc_pred fev1_pred : Q) (g : G) : Q * Q :=
  measure (breath_loop fvc_pred g).

(** The generator state before the noise draw of sample [i] in a run
    started in state [g], and that draw. *)
Definition rng_at (g : G) (i : nat) : G :=
  Nat.iter i (fun g' => snd (normal 0 0.03 g')) (snd (rand (snd (rand g)))).

Definition noise_at (g : G) (i : nat) : Q :=
  fst (normal 0 0.03 (rng_at g i)).

(** The two uniform draws of a run started in generator state [g]. *)
Definition draw_U (g : G) : Q := fst (rand g).
Definition draw_U2 (g : G) : Q := fst (rand (snd (rand g))).

(** *** The run in closed form

    The values the loop leaves in [flow[i]] and [volume[i]] and the
    display events of iteration [i], for a run with predicted FVC
    [fvc_pred] started in generator state [g].  That the loop computes
    exactly these is [breath_loop_closed] below. *)
Definition peak_flow_of (fvc_pred : Q) (g : G) : Q :=
  fvc_pred * (0.8 + 0.4 * draw_U g).

Definition decay_of (g : G) : Q := 2.5 + draw_U2 g.

Definition flow_value (fvc_pred : Q) (g : G) (i : nat) : Q :=
  (peak_flow_of fvc_pred g * (of_nat i / of_nat total_points))
  * exp (- decay_of g * of_nat i / of_nat total_points)
  + noise_at g i.

Definition flow_prefix (fvc_pred : Q) (g : G) (n : nat) : list Q :=
  map (flow_value fvc_pred g) (seq 0 n).

Definition volume_value (fvc_pred : Q) (g : G) (i : nat) : Q :=
  if (0 <? i)%nat
  then trapz (flow_prefix fvc_pred g (i + 1)) (take (i + 1) time_grid)
  else 0.

Definition readout_of (fvc_pred : Q) (g : G) (i : nat) : list event :=
  [TimeVarSet (get time_grid i);
   FlowVarSet (flow_value fvc_pred g i);
   VolumeVarSet (volume_value fvc_pred g i)].

Definition redraw_of (fvc_pred : Q) (g : G) (i : nat) : list event :=
  [AxClear;
   AxPlot (take (i + 1) time_grid) (flow_prefix fvc_pred g (i + 1));
   AxFillBetween (take (i + 1) time_grid) 0 (flow_prefix fvc_pred g (i + 1));
   AxSetXlabel "Time (s)";
   AxSetYlabel "Flow (L/s)";
   AxSetTitle "Real-Time Spirometry Flow";
   AxGrid true;
   CanvasDraw;
   Sleep 0.02].

Definition events_of (fvc_pred : Q) (g : G) (i : nat) : list event :=
  (if (i mod 20 =? 0)%nat then readout_of fvc_pred g i else [])
  ++ redraw_of fvc_pred g i.

(** The state after the first [k] iterations of the loop of a run. *)
Definition loop_state (fvc_pred : Q) (g : G) (k : nat) : sim :=
  fold_left
    (body time_grid (peak_flow_of fvc_pred g) (decay_of g))
    (seq 0 k)
    (Sim (rng_at g 0) (zeros total_points) (zeros total_points) [AxClear]).

(** The same state, written without the loop. *)
Definition closed_state (fvc_pred : Q) (g : G) (k : nat) : sim :=
  Sim (rng_at g k)
      (flow_prefix fvc_pred g k ++ zeros (total_points - k))
      (map (volume_value fvc_pred g) (seq 0 k) ++ zeros (total_points - k))
      (AxClear :: flat_map (events_of fvc_pred g) (seq 0 k)).

End Simulator.

Arguments draw_shape {G} rand fvc_pred g.
Arguments body exp {G} normal t peak_flow decay st i.
Arguments breath_loop exp {G} rand normal fvc_pred g.
Arguments measure {G} st.
Arguments simulate_breath exp {G} rand normal fvc_pred fev1_pred g.
Arguments rng_at {G} rand normal g i.
Arguments noise_at {G} rand normal g i.
Arguments draw_U {G} rand g.
Arguments draw_U2 {G} rand g.
Arguments peak_flow_of {G} rand fvc_pred g.
Arguments decay_of {G} rand g.
Arguments flow_value exp {G} rand normal fvc_pred g i.
Arguments flow_prefix exp {G} rand normal fvc_pred g n.
Arguments volume_value exp {G} rand normal fvc_pred g i.
Arguments readout_of exp {G} rand normal fvc_pred g i.
Arguments redraw_of exp {G} rand normal fvc_pred g i.
Arguments events_of exp {G} rand normal fvc_pred g i.
Arguments loop_state exp {G} rand normal fvc_pred g k.
Arguments closed_state exp {G} rand normal fvc_pred g k.
Arguments Sim {G} rng flow volume log.
Arguments rng {G} s.
Arguments flow {G} s.
Arguments volume {G} s.
Arguments log {G} s.

(** Selecting events of a log: the label updates of lines 45-47, and the
    calls of [canvas.draw()]. *)
Definition is_readout (e : event) : bool :=
  match e with
  | TimeVarSet _ | FlowVarSet _ | VolumeVarSet _ => true
  | _ => false
  end.

Definition is_time_set (e : event) : bool :=
  match e with TimeVarSet _ => true | _ => false end.

Definition is_draw (e : event) : bool :=
  match e with CanvasDraw => true | _ => false end.

Definition is_plot (e : event) : bool :=
  match e with AxPlot _ _ => true | _ => false end.

(** The sample indices at which the guard of line 44 holds. *)
Definition readout_indices : list nat :=
  List.filter (fun i => (i mod 20 =? 0)%nat) (seq 0 total_points).

(** ** Quantities derived from a run *)

Section Derived.

Variable exp : Q -> Q.
Variable G : Type.
Variable rand : G -> Q * G.
Variable normal : Q -> Q -> G -> Q * G.

(** The noise-free flow of sample [i] per litre of predicted FVC: the
    factor that multiplies [fvc_pred] in line 38. *)
Definition shape_value (g : G) (i : nat) : Q :=
  ((0.8 + 0.4 * draw_U rand g) * (of_nat i / of_nat total_points))
  * exp (- decay_of rand g * of_nat i / of_nat total_points).

End Derived.

Arguments shape_value exp {G} rand g i.

(** Seconds slept by the events of a log (line 58). *)
Definition sleep_secs (e : event) : Q :=
  match e with Sleep secs => secs | _ => 0 end.

Definition sleep_total (l : list event) : Q := Qsum (map sleep_secs l).

(** ** Facts about the number helpers *)

Lemma Qgeb_true x y : Qgeb x y = true <-> y <= x.
Proof. unfold Qgeb. apply Qle_bool_iff. Qed.

Lemma Qgeb_false x y : Qgeb x y = false <-> x < y.
Proof.
  unfold Qgeb. split; intros H.
  - apply Qnot_le_lt. intros Hle. apply Qle_bool_iff in Hle. congruence.
  - destruct (Qle_bool y x) eqn:E; [|reflexivity].
    apply Qle_bool_iff in E. lra.
Qed.

Lemma Qgtb_true x y : Qgtb x y = true <-> y < x.
Proof.
  unfold Qgtb. rewrite negb_true_iff. split; intros H.
  - apply Qnot_le_lt. intros Hle. apply Qle_bool_iff in Hle. congruence.
  - destruct (Qle_bool x y) eqn:E; [|reflexivity].
    apply Qle_bool_iff in E. lra.
Qed.

Lemma Qgtb_false x y : Qgtb x y = false <-> x <= y.
Proof. unfold Qgtb. rewrite negb_false_iff. apply Qle_bool_iff. Qed.

Lemma py_max_lower_bound a b : b <= py_max a b.
Proof.
  unfold py_max. destruct (Qgtb b a) eqn:E; [lra|].
  now apply Qgtb_false in E.
Qed.

Lemma py_max_left a b : b <= a -> py_max a b = a.
Proof.
  intros H. unfold py_max. apply Qgtb_false in H. now rewrite H.
Qed.

Lemma py_div_ok x y : ~ y == 0 -> py_div x y = Ok (x / y).
Proof.
  intros H. unfold py_div. destruct (Qeq_bool y 0) eqn:E; [|reflexivity].
  apply Qeq_bool_iff in E. contradiction.
Qed.

Lemma py_div_zero x y : y == 0 -> py_div x y = Raise ZeroDivisionError.
Proof.
  intros H. unfold py_div. apply Qeq_bool_iff in H. now rewrite H.
Qed.

(** ** Arrays *)

Lemma insert_middle (pre suf : list Q) (x y : Q) (k : nat) :
  length pre = k -> <[k := y]> (pre ++ x :: suf) = pre ++ y :: suf.
Proof.
  intros <-. induction pre as [|a pre IH]; cbn; [reflexivity|]. now f_equal.
Qed.

Lemma get_middle (pre suf : list Q) (x : Q) (k : nat) :
  length pre = k -> get (pre ++ x :: suf) k = x.
Proof.
  intros <-. unfold get.
  induction pre as [|a pre IH]; cbn; [reflexivity|]. exact IH.
Qed.

Lemma take_middle (pre suf : list Q) (x : Q) (k : nat) :
  length pre = k -> take (k + 1) (pre ++ x :: suf) = pre ++ [x].
Proof.
  intros <-. induction pre as [|a pre IH]; cbn; [reflexivity|]. now f_equal.
Qed.

Lemma take_prefix (pre suf : list Q) (k : nat) :
  length pre = k -> take k (pre ++ suf) = pre.
Proof.
  intros <-.
  induction pre as [|a pre IH]; cbn; [now destruct suf|]. now f_equal.
Qed.

Lemma lookup_map_seq (f : nat -> Q) (n i : nat) :
  (i < n)%nat -> map f (seq 0 n) !! i = Some (f i).
Proof.
  intros Hi. induction n as [|n IH]; [lia|].
  rewrite seq_S, map_app. cbn [map Nat.add].
  destruct (decide (i = n)) as [->|Hne].
  - apply list_lookup_middle. now rewrite length_map, length_seq.
  - rewrite lookup_app_l by (rewrite length_map, length_seq; lia).
    apply IH. lia.
Qed.

Lemma zip_with_take_self (f : Q -> Q -> Q) (l : list Q) :
  zip_with f (drop 1 l) (take (length l - 1) l) = zip_with f (drop 1 l) l.
Proof.
  destruct l as [|a l]; [reflexivity|]. cbn [drop length].
  replace (S (length l) - 1)%nat with (length l) by lia.
  revert a. induction l as [|b l IH]; intros a; [reflexivity|].
  cbn. f_equal. apply IH.
Qed.

(** NumPy's [trapz] is the composite trapezoidal rule. *)
Lemma trapz_trapezoid_rule (y x : list Q) :
  trapz y x == trapezoid_rule y x.
Proof.
  unfold trapz, diff. rewrite !zip_with_take_self.
  revert x. induction y as [|y0 y IH]; intros x.
  - cbn. destruct (zip_with Qminus (drop 1 x) x); reflexivity.
  - destruct y as [|y1 y].
    + cbn. destruct (zip_with Qminus (drop 1 x) x); reflexivity.
    + destruct x as [|x0 [|x1 x]]; try reflexivity.
      specialize (IH (x1 :: x)).
      cbn [drop zip_with Qsum foldr trapezoid_rule] in *.
      rewrite IH. field.
Qed.

Lemma trapz_single (y x : list Q) : trapz (take 1 y) x = 0.
Proof.
  unfold trapz. destruct y as [|a y]; cbn.
  - now destruct (diff x).
  - rewrite take_0. cbn. now destruct (diff x).
Qed.

Lemma filter_cons_false {A : Type} (p : A -> bool) (a : A) (l : list A) :
  p a = false -> List.filter p (a :: l) = List.filter p l.
Proof. intros H. cbn [List.filter]. now rewrite H. Qed.

Lemma filter_flat_map {A B : Type} (p : B -> bool) (f : A -> list B)
    (l : list A) :
  List.filter p (flat_map f l) = flat_map (fun a => List.filter p (f a)) l.
Proof.
  induction l as [|a l IH]; [reflexivity|].
  cbn [flat_map]. rewrite List.filter_app, IH. reflexivity.
Qed.

Lemma flat_map_if {A B : Type} (p : A -> bool) (f : A -> list B)
    (l : list A) :
  flat_map (fun a => if p a then f a else []) l = flat_map f (List.filter p l).
Proof.
  induction l as [|a l IH]; [reflexivity|].
  cbn [flat_map List.filter]. destruct (p a); cbn [flat_map app]; now rewrite IH.
Qed.

Lemma flat_map_singleton {A B : Type} (f : A -> B) (l : list A) :
  flat_map (fun a => [f a]) l = map f l.
Proof. induction l as [|a l IH]; [reflexivity|]. cbn. now rewrite IH. Qed.

Lemma readout_indices_eq :
  readout_indices = [0; 20; 40; 60; 80; 100]%nat.
Proof. reflexivity. Qed.

Lemma lower_Male : lower "Male" = "male"%string.
Proof. reflexivity. Qed.

Lemma lower_Female_not_male : (lower "Female" =? "male")%string = false.
Proof. reflexivity. Qed.

Lemma calculate_spirometry_unfold age height sex smoker :
  calculate_spirometry age height sex smoker =
  (py_max (fst (pre_floor age height sex smoker)) 1.5,
   py_max (snd (pre_floor age height sex smoker)) 1.0).
Proof.
  unfold calculate_spirometry.
  now destruct (pre_floor age height sex smoker).
Qed.

(** ** The interpreter *)

Lemma interpret_results_ratio fvc fev1 :
  ~ fvc == 0 ->
  interpret_results fvc fev1 =
  if Qgeb (fev1 / fvc) 0.7 then Ok Normal
  else if Qgeb (fev1 / fvc) 0.5 then Ok MildObstruction
  else Ok SevereObstruction.
Proof. intros H. unfold interpret_results. now rewrite py_div_ok. Qed.

(** C1.  For a nonzero [fvc], with [ratio = fev1 / fvc], the interpreter
    answers Normal exactly when [ratio >= 0.70], MildObstruction exactly
    when [0.50 <= ratio < 0.70] and SevereObstruction exactly when
    [ratio < 0.50]; both lower bounds are inclusive. *)
Theorem interpret_results_thresholds (fvc fev1 : Q) :
  ~ fvc == 0 ->
  let ratio := fev1 / fvc in
  (interpret_results fvc fev1 = Ok Normal <-> 0.70 <= ratio) /\
  (interpret_results fvc fev1 = Ok MildObstruction
     <-> 0.50 <= ratio /\ ratio < 0.70) /\
  (interpret_results fvc fev1 = Ok SevereObstruction <-> ratio < 0.50) /\
  (ratio == 0.70 -> interpret_results fvc fev1 = Ok Normal) /\
  (ratio == 0.50 -> interpret_results fvc fev1 = Ok MildObstruction).
Proof.
  intros Hnz ratio. rewrite (interpret_results_ratio _ _ Hnz). fold ratio.
  destruct (Qgeb ratio 0.7) eqn:E7.
  - apply Qgeb_true in E7.
    repeat split; try discriminate; try reflexivity; intros; lra.
  - apply Qgeb_false in E7. destruct (Qgeb ratio 0.5) eqn:E5.
    + apply Qgeb_true in E5.
      repeat split; try discriminate; try reflexivity; intros; lra.
    + apply Qgeb_false in E5.
      repeat split; try discriminate; try reflexivity; intros; lra.
Qed.

Lemma interpret_results_thresholds_witness :
  ~ 10 == 0 /\
  (interpret_results 10 7 = Ok Normal <-> 0.70 <= 7 / 10).
Proof.
  assert (H : ~ 10 == 0) by (intros H; discriminate H).
  split; [exact H|].
  exact (proj1 (interpret_results_thresholds 10 7 H)).
Defined.

(** On Python numbers the division error is raised exactly when [fvc] is
    zero, and every nonzero [fvc] gets one of the three interpretations. *)
Lemma interpret_results_python_numbers (fvc fev1 : Q) :
  (interpret_results fvc fev1 = Raise ZeroDivisionError <-> fvc == 0) /\
  (~ fvc == 0 ->
   exists c, interpret_results fvc fev1 = Ok c /\
             (c = Normal \/ c = MildObstruction \/ c = SevereObstruction)).
Proof.
  split.
  - split.
    + intros H. destruct (Qeq_dec fvc 0) as [Hz|Hnz]; [exact Hz|].
      rewrite (interpret_results_ratio _ _ Hnz) in H.
      destruct (Qgeb _ 0.7); [discriminate|].
      destruct (Qgeb _ 0.5); discriminate.
    + intros Hz. unfold interpret_results. now rewrite py_div_zero.
  - intros Hnz. rewrite (interpret_results_ratio _ _ Hnz).
    destruct (Qgeb _ 0.7); [eauto|].
    destruct (Qgeb _ 0.5); eauto.
Qed.

Lemma float64_interpret_total (fvc fev1 : float) :
  exists c, NumPy.interpret_results fvc fev1 = Ok c /\
            (c = Normal \/ c = MildObstruction \/ c = SevereObstruction).
Proof.
  unfold NumPy.interpret_results. cbv zeta.
  destruct (_ <=? _)%float; [eauto|].
  destruct (_ <=? _)%float; eauto.
Qed.

(** Division by a zero of either sign, [zero = S754_zero s]: the quotient
    is an infinity whose sign is that of the dividend, flipped when [s] is
    set, or NaN; only the positive infinity passes a threshold. *)
Lemma float64_interpret_zero_divisor (z x : float) (s : bool) :
  Prim2SF z = S754_zero s ->
  NumPy.interpret_results z x =
  match Prim2SF x with
  | S754_infinity sx | S754_finite sx _ _ =>
      if xorb sx s then Ok SevereObstruction else Ok Normal
  | _ => Ok SevereObstruction
  end.
Proof.
  intros Hz. unfold NumPy.interpret_results. cbv zeta.
  rewrite !leb_spec, div_spec, Hz.
  destruct (Prim2SF x) as [sx|sx| |sx m e]; try reflexivity;
    destruct sx, s; reflexivity.
Qed.

Lemma float64_positive (x : float) :
  (0 <? x)%float = true <->
  (exists m e, Prim2SF x = S754_finite false m e)
  \/ Prim2SF x = S754_infinity false.
Proof.
  rewrite ltb_spec. change (Prim2SF 0) with (S754_zero false).
  destruct (Prim2SF x) as [sx|sx| |sx m e]; cbn.
  - split; [discriminate|]. intros [(m & e & H)|H]; discriminate.
  - destruct sx; (split; [try discriminate; auto|]).
    + intros [(m & e & H)|H]; discriminate.
    + reflexivity.
  - split; [discriminate|]. intros [(m & e & H)|H]; discriminate.
  - destruct sx; (split; [try discriminate; eauto|]).
    + intros [(m' & e' & H)|H]; discriminate.
    + reflexivity.
Qed.

(** C6 as written fails on the numbers the program passes: with
    [fvc = 0.0] and [fev1 = 1.0] the quotient is the positive infinity and
    the interpreter returns Normal; no error is raised. *)
Lemma interpret_results_zero_fvc_refuted :
  NumPy.interpret_results 0 1 = Ok Normal /\
  NumPy.interpret_results 0 1 <> Raise ZeroDivisionError.
Proof. split; [vm_compute; reflexivity|vm_compute; discriminate]. Qed.

(** C6, amended.  On the [np.float64] values that the simulator returns
    the interpreter never fails: every pair, a zero [fvc] included, gets
    one of the three interpretations.  With [fvc = 0.0] the result is
    Normal when [fev1 > 0] and SevereObstruction otherwise ([fev1 <= 0] or
    NaN).  The division error is raised only on plain Python numbers, and
    there exactly when [fvc] is zero. *)
Theorem interpret_results_zero_divisor :
  (forall fvc fev1 : float,
     exists c, NumPy.interpret_results fvc fev1 = Ok c /\
               (c = Normal \/ c = MildObstruction \/ c = SevereObstruction))
  /\
  (forall fev1 : float,
     NumPy.interpret_results 0 fev1 =
     if (0 <? fev1)%float then Ok Normal else Ok SevereObstruction) /\
  (forall fvc fev1 : Q,
     (interpret_results fvc fev1 = Raise ZeroDivisionError <-> fvc == 0) /\
     (~ fvc == 0 ->
      exists c, interpret_results fvc fev1 = Ok c /\
                (c = Normal \/ c = MildObstruction
                 \/ c = SevereObstruction))).
Proof.
  split; [exact float64_interpret_total|].
  split; [|exact interpret_results_python_numbers].
  intros fev1.
  rewrite (float64_interpret_zero_divisor 0 fev1 false eq_refl).
  destruct (0 <? fev1)%float eqn:E.
  - apply float64_positive in E as [(m & e & ->)| ->]; reflexivity.
  - destruct (Prim2SF fev1) as [sx|sx| |sx m e] eqn:Ex; try reflexivity;
      destruct sx; try reflexivity; exfalso;
      assert (H : (0 <? fev1)%float = true)
        by (apply float64_positive; rewrite Ex; eauto);
      congruence.
Qed.

(** ** The predictor *)

(** C2 as written fails: for age 30, height 170, Male, non-smoker the
    predictor returns neither 3.92 nor 3.18. *)
Lemma calculate_spirometry_example_refuted :
  ~ fst (calculate_spirometry 30 170 "Male" false) == 3.92 /\
  ~ snd (calculate_spirometry 30 170 "Male" false) == 3.18.
Proof. split; vm_compute; discriminate. Qed.

(** C2, amended.  The predictor evaluates the sex-specific regression
    (Male: 0.052 h - 0.022 a - 3.60 and 0.041 h - 0.018 a - 2.69; Female:
    0.041 h - 0.018 a - 2.69 and 0.034 h - 0.013 a - 1.74), then the smoker
    adjustment, then the floors; for age 30, height 170, Male, non-smoker
    it returns 4.58 and 3.74. *)
Theorem calculate_spirometry_regression (age height : Q) (smoker : bool) :
  regression age height "Male" =
    (0.052 * height - 0.022 * age - 3.60,
     0.041 * height - 0.018 * age - 2.69) /\
  regression age height "Female" =
    (0.041 * height - 0.018 * age - 2.69,
     0.034 * height - 0.013 * age - 1.74) /\
  (forall sex,
     let '(fvc, fev1) := regression age height sex in
     calculate_spirometry age height sex smoker =
       (py_max (if smoker then fvc * 0.9 else fvc) 1.5,
        py_max (if smoker then fev1 * 0.85 else fev1) 1.0)) /\
  fst (calculate_spirometry 30 170 "Male" false) == 4.58 /\
  snd (calculate_spirometry 30 170 "Male" false) == 3.74.
Proof.
  repeat split.
  - intros sex. unfold calculate_spirometry, pre_floor.
    destruct (regression age height sex) as [fvc fev1].
    now destruct smoker.
Qed.

(** C7.  Whatever the age, height, sex and smoker flag, the predictor
    returns a pair (it has no failing path) with [fvc >= 1.5] and
    [fev1 >= 1.0]. *)
Theorem calculate_spirometry_floors
    (age height : Q) (sex : string) (smoker : bool) :
  exists fvc fev1,
    calculate_spirometry age height sex smoker = (fvc, fev1) /\
    1.5 <= fvc /\ 1.0 <= fev1.
Proof.
  rewrite calculate_spirometry_unfold.
  eexists _, _. split; [reflexivity|].
  split; apply py_max_lower_bound.
Qed.

(** C8.  For two profiles that differ only in the smoker flag, the
    smoker's values before the floors are 0.90 times (fvc) and 0.85 times
    (fev1) the non-smoker's, hence strictly lower when the non-smoker's
    are positive; the floors are applied to these values. *)
Theorem smoker_pre_floor_ratio (age height : Q) (sex : string) :
  let ns := pre_floor age height sex false in
  let s := pre_floor age height sex true in
  ns = regression age height sex /\
  fst s == 0.90 * fst ns /\
  snd s == 0.85 * snd ns /\
  (0 < fst ns -> fst s < fst ns) /\
  (0 < snd ns -> snd s < snd ns) /\
  (forall smoker,
     calculate_spirometry age height sex smoker =
     (py_max (fst (pre_floor age height sex smoker)) 1.5,
      py_max (snd (pre_floor age height sex smoker)) 1.0)).
Proof.
  intros ns s.
  assert (Hfloor := calculate_spirometry_unfold age height sex).
  subst ns s. unfold pre_floor in *.
  destruct (regression age height sex) as [fvc fev1].
  cbn [fst snd]. repeat split; try lra. exact Hfloor.
Qed.

(** C10.  A sex value whose lowercase form is not "male" -- "Female" or
    any other string -- gets the female regression coefficients; nothing
    is rejected. *)
Theorem sex_not_male_is_female
    (age height : Q) (sex : string) (smoker : bool) :
  lower sex <> "male"%string ->
  regression age height sex =
    (0.041 * height - 0.018 * age - 2.69,
     0.034 * height - 0.013 * age - 1.74) /\
  calculate_spirometry age height sex smoker =
    calculate_spirometry age height "Female" smoker.
Proof.
  intros H. apply String.eqb_neq in H.
  assert (R : regression age height sex = regression age height "Female").
  { unfold regression. now rewrite H, lower_Female_not_male. }
  split.
  - rewrite R. reflexivity.
  - unfold calculate_spirometry, pre_floor. now rewrite R.
Qed.

Lemma sex_not_male_is_female_witness :
  lower "Unknown" <> "male"%string /\
  calculate_spirometry 30 170 "Unknown" true =
    calculate_spirometry 30 170 "Female" true.
Proof.
  assert (H : lower "Unknown" <> "male"%string) by (vm_compute; discriminate).
  split; [exact H|].
  exact (proj2 (sex_not_male_is_female 30 170 "Unknown" true H)).
Defined.

(** ** The time grid *)

Lemma of_nat_nonzero (k : nat) : (0 < k)%nat -> ~ of_nat k == 0.
Proof.
  intros Hk H. unfold of_nat, inject_Z, Qeq in H. cbn in H. lia.
Qed.

Lemma length_linspace (a b : Q) (n : nat) : length (linspace a b n) = n.
Proof.
  unfold linspace. destruct (1 <? n)%nat.
  - now rewrite length_insert, length_map, length_seq.
  - now rewrite length_map, length_seq.
Qed.

Lemma linspace_lookup (a b : Q) (n i : nat) :
  (1 < n)%nat -> (i < n)%nat ->
  exists x, linspace a b n !! i = Some x /\
            x == a + of_nat i * ((b - a) / of_nat (n - 1)).
Proof.
  intros Hn Hi. unfold linspace.
  apply Nat.ltb_lt in Hn as Hb. rewrite Hb.
  destruct (decide (i = (n - 1)%nat)) as [->|Hne].
  - exists b. split.
    + apply list_lookup_insert_eq. rewrite length_map, length_seq. lia.
    + assert (Hz := of_nat_nonzero (n - 1) ltac:(lia)). field. exact Hz.
  - eexists. split.
    + rewrite list_lookup_insert_ne by congruence.
      apply lookup_map_seq. exact Hi.
    + cbv beta. ring.
Qed.

Lemma linspace_last (a b : Q) (n : nat) :
  (1 < n)%nat -> linspace a b n !! (n - 1)%nat = Some b.
Proof.
  intros Hn. unfold linspace. apply Nat.ltb_lt in Hn as Hb. rewrite Hb.
  apply list_lookup_insert_eq. rewrite length_map, length_seq. lia.
Qed.

Lemma length_time_grid : length time_grid = total_points.
Proof. apply length_linspace. Qed.

(** C4 as written fails: the last sample's time is 6 seconds, which is
    neither [(119 / 120) * 6] nor 5.95. *)
Lemma time_grid_last_refuted :
  time_grid !! 119%nat = Some 6 /\
  ~ 6 == of_nat 119 / of_nat total_points * 6.0 /\
  ~ 6 == 5.95.
Proof.
  split; [apply (linspace_last 0 6 120); unfold lt; repeat constructor|].
  split; intros H; discriminate H.
Qed.

(** C4, amended.  The time grid is [np.linspace(0, 6, 120)]: sample [i]
    has time [i / (sampleCount - 1) * durationSec], that is [6 i / 119];
    the first sample is at 0 and the last one at exactly 6 seconds. *)
Theorem time_grid_values (i : nat) :
  (i < total_points)%nat ->
  length time_grid = total_points /\
  (exists x, time_grid !! i = Some x /\
             x == of_nat i / of_nat (total_points - 1) * 6.0 /\
             x == of_nat i * (6 # 119)) /\
  get time_grid 0 == 0 /\
  time_grid !! (total_points - 1)%nat = Some 6.
Proof.
  intros Hi. split; [apply length_time_grid|]. split.
  - destruct (linspace_lookup 0 6 total_points i) as (x & Hx & Ex);
      [unfold total_points; lia|exact Hi|].
    exists x. split; [exact Hx|].
    assert (Hz := of_nat_nonzero (total_points - 1) ltac:(unfold total_points; lia)).
    split.
    + rewrite Ex. field. exact Hz.
    + rewrite Ex. change (of_nat (total_points - 1)) with (119 # 1).
      field.
  - split; [reflexivity|].
    apply (linspace_last 0 6 total_points). unfold total_points. lia.
Qed.

Lemma time_grid_values_witness :
  (1 < total_points)%nat /\
  exists x, time_grid !! 1%nat = Some x /\ x == of_nat 1 * (6 # 119).
Proof.
  assert (H : (1 < total_points)%nat) by (unfold total_points; lia).
  split; [exact H|].
  destruct (time_grid_values 1 H) as (_ & (x & Hx & _ & Ex) & _).
  exists x. split; [exact Hx | exact Ex].
Defined.

(** ** The simulation loop *)

Section Run.

Variable exp : Q -> Q.
Variable G : Type.
Variable rand : G -> Q * G.
Variable normal : Q -> Q -> G -> Q * G.
Variable fvc_pred : Q.
Variable g : G.

Local Abbreviation fv := (flow_value exp rand normal fvc_pred g).
Local Abbreviation fpre := (flow_prefix exp rand normal fvc_pred g).
Local Abbreviation vv := (volume_value exp rand normal fvc_pred g).
Local Abbreviation ev := (events_of exp rand normal fvc_pred g).
Local Abbreviation loop_state := (loop_state exp rand normal fvc_pred g).
Local Abbreviation closed_state := (closed_state exp rand normal fvc_pred g).

Lemma draw_shape_eq :
  draw_shape rand fvc_pred g =
  (peak_flow_of rand fvc_pred g, decay_of rand g, rng_at rand normal g 0).
Proof.
  unfold draw_shape, peak_flow_of, decay_of, draw_U, draw_U2, rng_at.
  cbn [Nat.iter]. destruct (rand g) as [u g1]. cbn [fst snd].
  destruct (rand g1) as [u2 g2]. reflexivity.
Qed.

Lemma breath_loop_loop_state :
  breath_loop exp rand normal fvc_pred g = loop_state total_points.
Proof.
  unfold breath_loop, loop_state. rewrite draw_shape_eq.
  cbv beta iota zeta. reflexivity.
Qed.

Lemma length_flow_prefix (k : nat) : length (fpre k) = k.
Proof. unfold flow_prefix. now rewrite length_map, length_seq. Qed.

Lemma flow_prefix_S (k : nat) : fpre (k + 1) = fpre k ++ [fv k].
Proof.
  unfold flow_prefix. rewrite Nat.add_1_r, seq_S, map_app. reflexivity.
Qed.

Lemma body_closed (k : nat) :
  (k < total_points)%nat ->
  body exp normal time_grid (peak_flow_of rand fvc_pred g) (decay_of rand g)
       (closed_state k) k
  = closed_state (S k).
Proof.
  intros Hk. unfold body, closed_state. cbn [rng flow volume log].
  destruct (normal 0 0.03 (rng_at rand normal g k)) as [noise g1] eqn:En.
  replace (total_points - k)%nat with (S (total_points - S k)) by lia.
  change (zeros (S (total_points - S k)))
    with (0 :: zeros (total_points - S k)).
  assert (Hlen := length_flow_prefix k).
  assert (Hlenv : length (map vv (seq 0 k)) = k)
    by (rewrite length_map, length_seq; reflexivity).
  rewrite !(insert_middle _ _ _ _ k Hlen), !(get_middle _ _ _ k Hlen).
  rewrite ?(insert_middle _ _ _ _ k Hlen).
  rewrite !(take_middle _ _ _ k Hlen).
  assert (Hfv : (peak_flow_of rand fvc_pred g
                 * (of_nat k / of_nat total_points))
                * exp (- decay_of rand g * of_nat k / of_nat total_points)
                + noise = fv k).
  { unfold flow_value, noise_at. rewrite En. reflexivity. }
  rewrite Hfv, <- flow_prefix_S.
  assert (Hvv : (if (0 <? k)%nat
                 then <[k := trapz (fpre (k + 1)) (take (k + 1) time_grid)]>
                        (map vv (seq 0 k) ++ 0 :: zeros (total_points - S k))
                 else map vv (seq 0 k) ++ 0 :: zeros (total_points - S k))
                = map vv (seq 0 k) ++ vv k :: zeros (total_points - S k)).
  { assert (Hvk : vv k = if (0 <? k)%nat
                         then trapz (fpre (k + 1)) (take (k + 1) time_grid)
                         else 0) by reflexivity.
    rewrite Hvk. destruct (0 <? k)%nat; [|reflexivity].
    rewrite (insert_middle _ _ _ _ k Hlenv). reflexivity. }
  rewrite Hvv, (get_middle _ _ _ k Hlenv).
  f_equal.
  - change (rng_at rand normal g (S k))
      with (snd (normal 0 0.03 (rng_at rand normal g k))).
    rewrite En. reflexivity.
  - rewrite <- Nat.add_1_r, flow_prefix_S, <- app_assoc. reflexivity.
  - rewrite seq_S, map_app, <- app_assoc. reflexivity.
  - rewrite seq_S, flat_map_app. cbn [flat_map Nat.add].
    rewrite app_nil_r. unfold events_of, readout_of, redraw_of.
    destruct (k mod 20 =? 0)%nat; cbn [app]; rewrite <- ?app_assoc; reflexivity.
Qed.

(** The loop computes the closed form, at every iteration count. *)
Lemma loop_state_closed (k : nat) :
  (k <= total_points)%nat -> loop_state k = closed_state k.
Proof.
  induction k as [|k IH]; intros Hk.
  - unfold loop_state, closed_state. cbn [seq fold_left map flat_map app].
    now rewrite Nat.sub_0_r.
  - unfold loop_state. rewrite seq_S, fold_left_app. cbn [fold_left Nat.add].
    fold (loop_state k). rewrite IH by lia. apply body_closed. lia.
Qed.

Lemma breath_loop_closed :
  breath_loop exp rand normal fvc_pred g =
  Sim (rng_at rand normal g total_points)
      (fpre total_points)
      (map vv (seq 0 total_points))
      (AxClear :: flat_map ev (seq 0 total_points)).
Proof.
  rewrite breath_loop_loop_state, loop_state_closed by lia.
  unfold closed_state. rewrite Nat.sub_diag. unfold zeros. cbn [replicate].
  now rewrite !app_nil_r.
Qed.


Lemma flow_closed :
  flow (breath_loop exp rand normal fvc_pred g) = fpre total_points.
Proof. rewrite breath_loop_closed. reflexivity. Qed.

Lemma volume_closed :
  volume (breath_loop exp rand normal fvc_pred g) =
  map vv (seq 0 total_points).
Proof. rewrite breath_loop_closed. reflexivity. Qed.

Lemma log_closed :
  log (breath_loop exp rand normal fvc_pred g) =
  AxClear :: flat_map ev (seq 0 total_points).
Proof. rewrite breath_loop_closed. reflexivity. Qed.

Lemma take_flow_prefix (n m : nat) :
  (n <= m)%nat -> take n (fpre m) = fpre n.
Proof.
  intros Hnm. unfold flow_prefix.
  replace m with (n + (m - n))%nat by lia.
  rewrite seq_app, map_app. apply take_prefix.
  rewrite length_map, length_seq. reflexivity.
Qed.

Lemma get_flow_prefix (n i : nat) :
  (i < n)%nat -> get (fpre n) i = fv i.
Proof.
  intros Hi. unfold get, flow_prefix. rewrite lookup_map_seq by exact Hi.
  reflexivity.
Qed.

Lemma get_volume_values (n i : nat) :
  (i < n)%nat -> get (map vv (seq 0 n)) i = vv i.
Proof.
  intros Hi. unfold get. rewrite lookup_map_seq by exact Hi. reflexivity.
Qed.

Lemma volume_value_trapezoid (i : nat) :
  vv i == trapezoid_rule (fpre (i + 1)) (take (i + 1) time_grid).
Proof.
  unfold volume_value. destruct i as [|i].
  - reflexivity.
  - cbn [Nat.ltb Nat.leb]. apply trapz_trapezoid_rule.
Qed.

(** *** Display events of a run *)

Lemma readout_events (i : nat) :
  List.filter is_readout (ev i) =
  if (i mod 20 =? 0)%nat then readout_of exp rand normal fvc_pred g i else [].
Proof. unfold events_of. now destruct (i mod 20 =? 0)%nat. Qed.

Lemma time_set_events (i : nat) :
  List.filter is_time_set (ev i) =
  if (i mod 20 =? 0)%nat then [TimeVarSet (get time_grid i)] else [].
Proof. unfold events_of. now destruct (i mod 20 =? 0)%nat. Qed.

Lemma plot_events (i : nat) :
  List.filter is_plot (ev i) =
  [AxPlot (take (i + 1) time_grid) (fpre (i + 1))].
Proof. unfold events_of. now destruct (i mod 20 =? 0)%nat. Qed.

Lemma draw_events (i : nat) : List.filter is_draw (ev i) = [CanvasDraw].
Proof. unfold events_of. now destruct (i mod 20 =? 0)%nat. Qed.

Lemma log_readouts :
  List.filter is_readout (log (breath_loop exp rand normal fvc_pred g)) =
  flat_map (readout_of exp rand normal fvc_pred g) readout_indices.
Proof.
  rewrite log_closed, (filter_cons_false is_readout AxClear _ eq_refl).
  rewrite filter_flat_map, (flat_map_ext _ _ readout_events), flat_map_if.
  unfold readout_indices. reflexivity.
Qed.

Lemma log_time_sets :
  List.filter is_time_set (log (breath_loop exp rand normal fvc_pred g)) =
  map (fun i => TimeVarSet (get time_grid i)) readout_indices.
Proof.
  rewrite log_closed, (filter_cons_false is_time_set AxClear _ eq_refl).
  rewrite filter_flat_map, (flat_map_ext _ _ time_set_events), flat_map_if.
  rewrite flat_map_singleton. unfold readout_indices. reflexivity.
Qed.

Lemma time_set_count :
  length (List.filter is_time_set
            (log (breath_loop exp rand normal fvc_pred g))) = 6%nat.
Proof. rewrite log_time_sets, length_map. reflexivity. Qed.

(** C5.  The trace of a run has exactly [total_points] = 120 samples of
    time, flow and volume; the first volume sample is 0; every volume
    sample is the trapezoidal-rule integral of the flow samples up to and
    including its index over their times; and the flow sample [i] is
    [peak_flow * (i / 120) * exp (- decay * i / 120)] plus that sample's
    noise draw, with [peak_flow = fvc_pred * (0.8 + 0.4 U)] and
    [decay = 2.5 + U2] for the two uniform draws made once, before the
    loop. *)
Theorem breath_trace_invariant :
  let st := breath_loop exp rand normal fvc_pred g in
  let peak_flow := fvc_pred * (0.8 + 0.4 * draw_U rand g) in
  let decay := 2.5 + draw_U2 rand g in
  length time_grid = 120%nat /\
  length (flow st) = 120%nat /\
  length (volume st) = 120%nat /\
  volume st !! 0%nat = Some 0 /\
  forall i : nat, (i < 120)%nat ->
    flow st !! i =
      Some ((peak_flow * (of_nat i / of_nat 120))
            * exp (- decay * of_nat i / of_nat 120)
            + noise_at rand normal g i) /\
    exists v, volume st !! i = Some v /\
              v == trapezoid_rule (take (i + 1) (flow st))
                                  (take (i + 1) time_grid).
Proof.
  intros st peak_flow decay. subst st. rewrite flow_closed, volume_closed.
  split; [apply length_time_grid|].
  split; [apply length_flow_prefix|].
  split; [rewrite length_map, length_seq; reflexivity|].
  split; [rewrite lookup_map_seq by (unfold total_points; lia);
          reflexivity|].
  intros i Hi. split.
  - unfold flow_prefix. rewrite lookup_map_seq by exact Hi. reflexivity.
  - exists (vv i). split.
    + apply lookup_map_seq. exact Hi.
    + rewrite take_flow_prefix by (unfold total_points; lia).
      apply volume_value_trapezoid.
Qed.

(** C3.  When the loop has finished, the simulator returns
    [(fvc_measured, fev1_measured)] where [fvc_measured] is the
    trapezoidal-rule integral of the whole flow series over the whole time
    grid and [fev1_measured] is that integral over the first
    [floor(120 / 6) = 20] samples and their times. *)
Theorem simulate_breath_measures (fev1_pred : Q) :
  let st := breath_loop exp rand normal fvc_pred g in
  let n := (total_points / 6)%nat in
  length (flow st) = total_points /\
  length time_grid = total_points /\
  n = 20%nat /\
  exists fvc_measured fev1_measured,
    simulate_breath exp rand normal fvc_pred fev1_pred g =
      (fvc_measured, fev1_measured) /\
    fvc_measured == trapezoid_rule (flow st) time_grid /\
    fev1_measured == trapezoid_rule (take n (flow st)) (take n time_grid).
Proof.
  intros st n.
  split; [subst st; rewrite flow_closed; apply length_flow_prefix|].
  split; [apply length_time_grid|].
  split; [reflexivity|].
  unfold simulate_breath, measure. fold st.
  eexists _, _. split; [reflexivity|].
  split; [apply trapz_trapezoid_rule|].
  change (Z.to_nat (py_int (of_nat total_points / 6))) with n.
  apply trapz_trapezoid_rule.
Qed.

(** C9, amended.  The three label updates with [(t[i], flow[i],
    volume[i])] are made for the sample indices that are multiples of 20
    and for no others: six times in a run of 120 samples, in index order
    (0, 20, 40, 60, 80, 100), each with the values that sample has in the
    finished trace.  What happens once per sample, in index order, is the
    redraw of the chart with the series up to that sample. *)
Theorem readouts_every_twentieth_sample :
  let st := breath_loop exp rand normal fvc_pred g in
  List.filter is_readout (log st) =
    flat_map (fun i => [TimeVarSet (get time_grid i);
                        FlowVarSet (get (flow st) i);
                        VolumeVarSet (get (volume st) i)])
             [0; 20; 40; 60; 80; 100]%nat /\
  length (List.filter is_time_set (log st)) = 6%nat /\
  List.filter is_plot (log st) =
    map (fun i => AxPlot (take (i + 1) time_grid) (take (i + 1) (flow st)))
        (seq 0 total_points) /\
  length (List.filter is_draw (log st)) = total_points.
Proof.
  intros st. split; [|split; [|split]].
  - subst st. rewrite log_readouts, readout_indices_eq.
    rewrite flow_closed, volume_closed.
    unfold readout_of. cbn [flat_map app].
    rewrite !get_flow_prefix, !get_volume_values
      by (unfold total_points; lia).
    reflexivity.
  - apply time_set_count.
  - subst st. rewrite log_closed, flow_closed.
    rewrite (filter_cons_false is_plot AxClear _ eq_refl).
    rewrite filter_flat_map, (flat_map_ext _ _ plot_events).
    rewrite flat_map_singleton. apply map_ext_in.
    intros i Hi. apply in_seq in Hi.
    rewrite take_flow_prefix by lia. reflexivity.
  - subst st.
    rewrite log_closed, (filter_cons_false is_draw AxClear _ eq_refl).
    rewrite filter_flat_map, (flat_map_ext _ _ draw_events).
    rewrite (flat_map_singleton (fun _ => CanvasDraw)), length_map.
    apply length_seq.
Qed.

End Run.

(** C9 as written fails: in a run the label updates are made 6 times, not
    once for each of the 120 samples.  (The count is the same for every
    [np.exp], generator and input, see [time_set_count]; the run below
    fixes them to have a closed term.) *)
Lemma readouts_not_once_per_sample :
  let st := breath_loop (fun _ => 1) (fun u : unit => (0.5, u))
                        (fun _ _ (u : unit) => (0, u)) 4.58 tt in
  length (List.filter is_time_set (log st)) = 6%nat /\
  length (List.filter is_time_set (log st)) <> total_points.
Proof.
  cbv zeta. rewrite time_set_count. split; [reflexivity|discriminate].
Qed.

(** ** Further properties of the predictor *)

Lemma lower_ascii_idempotent (c : ascii) :
  lower_ascii (lower_ascii c) = lower_ascii c.
Proof. destruct c as [[] [] [] [] [] [] [] []]; reflexivity. Qed.

Lemma lower_idempotent (s : string) : lower (lower s) = lower s.
Proof.
  induction s as [|c s IH]; [reflexivity|].
  cbn [lower]. now rewrite lower_ascii_idempotent, IH.
Qed.

Lemma py_max_monotone (a a' b : Q) : a <= a' -> py_max a b <= py_max a' b.
Proof.
  intros H. unfold py_max.
  destruct (Qgtb b a) eqn:E, (Qgtb b a') eqn:E'.
  - lra.
  - apply Qgtb_false in E'. exact E'.
  - apply Qgtb_false in E. apply Qgtb_true in E'. lra.
  - exact H.
Qed.

Lemma py_max_cases (a b : Q) :
  (a < b /\ py_max a b = b) \/ (b <= a /\ py_max a b = a).
Proof.
  unfold py_max. destruct (Qgtb b a) eqn:E.
  - left. apply Qgtb_true in E. now split.
  - right. apply Qgtb_false in E. now split.
Qed.

(** X1.  The sex is compared without regard to letter case: two values that
    agree after lowercasing get the same prediction, a value and its
    lowercase form do, and every capitalisation of "male" selects the
    male coefficients. *)
Theorem calculate_spirometry_case_insensitive
    (age height : Q) (sex1 sex2 : string) (smoker : bool) :
  lower sex1 = lower sex2 ->
  calculate_spirometry age height sex1 smoker =
    calculate_spirometry age height sex2 smoker /\
  calculate_spirometry age height (lower sex1) smoker =
    calculate_spirometry age height sex1 smoker /\
  (lower sex1 = "male"%string ->
   regression age height sex1 =
     (0.052 * height - 0.022 * age - 3.60,
      0.041 * height - 0.018 * age - 2.69)).
Proof.
  intros H.
  assert (R : forall s1 s2, lower s1 = lower s2 ->
              calculate_spirometry age height s1 smoker =
              calculate_spirometry age height s2 smoker).
  { intros s1 s2 E. unfold calculate_spirometry, pre_floor, regression.
    now rewrite E. }
  split; [now apply R|]. split.
  - apply R, lower_idempotent.
  - intros Hm. unfold regression. now rewrite Hm.
Qed.

Lemma calculate_spirometry_case_insensitive_witness :
  lower "MALE" = lower "male" /\
  calculate_spirometry 30 170 "MALE" true =
    calculate_spirometry 30 170 "male" true.
Proof.
  assert (H : lower "MALE" = lower "male") by reflexivity.
  split; [exact H|].
  exact (proj1 (calculate_spirometry_case_insensitive 30 170 "MALE" "male"
                  true H)).
Defined.

(** X2.  The prediction never decreases with height and never increases with
    age, for either sex and smoker flag, floors included. *)
Theorem calculate_spirometry_monotone
    (age1 age2 height1 height2 : Q) (sex : string) (smoker : bool) :
  age2 <= age1 -> height1 <= height2 ->
  fst (calculate_spirometry age1 height1 sex smoker)
    <= fst (calculate_spirometry age2 height2 sex smoker) /\
  snd (calculate_spirometry age1 height1 sex smoker)
    <= snd (calculate_spirometry age2 height2 sex smoker).
Proof.
  intros Ha Hh. rewrite !calculate_spirometry_unfold. cbn [fst snd].
  unfold pre_floor, regression.
  destruct (lower sex =? "male")%string, smoker; cbn [fst snd];
    split; apply py_max_monotone; lra.
Qed.

Lemma calculate_spirometry_monotone_witness :
  40 <= 50 /\ 160 <= 180 /\
  fst (calculate_spirometry 50 160 "Female" true)
    <= fst (calculate_spirometry 40 180 "Female" true).
Proof.
  assert (Ha : 40 <= 50) by (vm_compute; discriminate).
  assert (Hh : 160 <= 180) by (vm_compute; discriminate).
  split; [exact Ha|]. split; [exact Hh|].
  exact (proj1 (calculate_spirometry_monotone 50 40 160 180 "Female" true
                  Ha Hh)).
Defined.

(** X3.  After the floors a smoker's prediction is never above the
    non-smoker's for the same age, height and sex.  It is strictly below
    exactly when the non-smoker's prediction is above its floor; at the
    floor the two coincide. *)
Theorem smoker_never_higher (age height : Q) (sex : string) :
  let ns := calculate_spirometry age height sex false in
  let s := calculate_spirometry age height sex true in
  fst s <= fst ns /\
  snd s <= snd ns /\
  (fst s < fst ns <-> 1.5 < fst ns) /\
  (snd s < snd ns <-> 1.0 < snd ns).
Proof.
  intros ns s. subst ns s. rewrite !calculate_spirometry_unfold.
  cbn [fst snd]. unfold pre_floor.
  destruct (regression age height sex) as [fvc fev1]. cbn [fst snd].
  destruct (py_max_cases fvc 1.5) as [[H1 ->]|[H1 ->]];
  destruct (py_max_cases (fvc * 0.9) 1.5) as [[H2 ->]|[H2 ->]];
  destruct (py_max_cases fev1 1.0) as [[H3 ->]|[H3 ->]];
  destruct (py_max_cases (fev1 * 0.85) 1.0) as [[H4 ->]|[H4 ->]];
  repeat split; intros; lra.
Qed.

(** ** Further properties of the interpreter *)

Lemma ratio_ge (c fvc fev1 : Q) :
  0 < fvc -> (c <= fev1 / fvc <-> c * fvc <= fev1).
Proof.
  intros Hpos. split; intros H.
  - apply (Qmult_le_r _ _ fvc Hpos) in H.
    assert (E : fev1 / fvc * fvc == fev1) by (field; lra). lra.
  - apply Qle_shift_div_l; assumption.
Qed.

(** X5.  For a positive [fvc] the interpretation can only improve when [fev1]
    grows: Normal stays Normal, what is not Severe does not become Severe,
    and the thresholds are [fev1 >= 0.7 fvc] and [fev1 >= 0.5 fvc]. *)
Theorem interpret_results_monotone (fvc fev1 fev1' : Q) :
  0 < fvc -> fev1 <= fev1' ->
  (interpret_results fvc fev1 = Ok Normal <-> 0.7 * fvc <= fev1) /\
  (interpret_results fvc fev1 = Ok SevereObstruction <-> fev1 < 0.5 * fvc) /\
  (interpret_results fvc fev1 = Ok Normal ->
   interpret_results fvc fev1' = Ok Normal) /\
  (interpret_results fvc fev1' = Ok SevereObstruction ->
   interpret_results fvc fev1 = Ok SevereObstruction).
Proof.
  intros Hpos Hle.
  assert (Hnz : ~ fvc == 0) by lra.
  assert (N : forall x, interpret_results fvc x = Ok Normal
                        <-> 0.7 * fvc <= x).
  { intros x. rewrite (interpret_results_ratio _ _ Hnz).
    destruct (Qgeb (x / fvc) 0.7) eqn:E7.
    - apply Qgeb_true, ratio_ge in E7; [|exact Hpos]. tauto.
    - apply Qgeb_false in E7.
      assert (~ 0.7 * fvc <= x).
      { intros H. apply (ratio_ge 0.7) in H; [lra|exact Hpos]. }
      destruct (Qgeb (x / fvc) 0.5); split; intros; try discriminate; tauto. }
  assert (S : forall x, interpret_results fvc x = Ok SevereObstruction
                        <-> x < 0.5 * fvc).
  { intros x. rewrite (interpret_results_ratio _ _ Hnz).
    destruct (Qgeb (x / fvc) 0.7) eqn:E7.
    - apply Qgeb_true, ratio_ge in E7; [|exact Hpos].
      split; intros; [discriminate|lra].
    - destruct (Qgeb (x / fvc) 0.5) eqn:E5.
      + apply Qgeb_true, ratio_ge in E5; [|exact Hpos].
        split; intros; [discriminate|lra].
      + apply Qgeb_false in E5.
        assert (~ 0.5 * fvc <= x).
        { intros H. apply (ratio_ge 0.5) in H; [lra|exact Hpos]. }
        split; intros; [lra|reflexivity]. }
  split; [apply N|]. split; [apply S|]. split.
  - intros H. apply N. apply N in H. lra.
  - intros H. apply S. apply S in H. lra.
Qed.

Lemma interpret_results_monotone_witness :
  0 < 4 /\ 3 <= 7 / 2 /\
  (interpret_results 4 3 = Ok Normal ->
   interpret_results 4 (7 / 2) = Ok Normal).
Proof.
  assert (Hp : 0 < 4) by reflexivity.
  assert (Hl : 3 <= 7 / 2) by (vm_compute; discriminate).
  split; [exact Hp|]. split; [exact Hl|].
  exact (proj1 (proj2 (proj2 (interpret_results_monotone 4 3 (7 / 2) Hp Hl)))).
Defined.

(** ** Further properties of the breath simulator *)

Lemma trapezoid_rule_cons2 (y0 y1 x0 x1 : Q) (y x : list Q) :
  trapezoid_rule (y0 :: y1 :: y) (x0 :: x1 :: x)
  = (x1 - x0) * ((y0 + y1) / 2) + trapezoid_rule (y1 :: y) (x1 :: x).
Proof. reflexivity. Qed.

Lemma trapezoid_rule_snoc (y x : list Q) (a b s t : Q) :
  length y = length x ->
  trapezoid_rule (y ++ [a; b]) (x ++ [s; t])
  == trapezoid_rule (y ++ [a]) (x ++ [s]) + (t - s) * ((a + b) / 2).
Proof.
  revert x. induction y as [|c y IH]; intros [|u x] Hlen; try discriminate.
  - cbn. ring.
  - injection Hlen as Hlen. specialize (IH x Hlen).
    destruct y as [|d y], x as [|v x]; try discriminate;
      cbn [app trapezoid_rule] in *; rewrite IH; ring.
Qed.

Lemma trapezoid_rule_superpose
    (f0 f n : nat -> Q) (a : Q) (l : list nat) (x : list Q) :
  (forall i, f0 i == a * f i + n i) ->
  trapezoid_rule (map f0 l) x
  == a * trapezoid_rule (map f l) x + trapezoid_rule (map n l) x.
Proof.
  intros H. revert x. induction l as [|i l IH]; intros x.
  - cbn. ring.
  - destruct l as [|j l]; [cbn; ring|].
    destruct x as [|x0 [|x1 x]]; [cbn; ring|cbn; ring|].
    specialize (IH (x1 :: x)). cbn [map] in *.
    rewrite !trapezoid_rule_cons2, IH, (H i), (H j). field.
Qed.

Lemma sleep_total_cons (e : event) (l : list event) :
  sleep_total (e :: l) = sleep_secs e + sleep_total l.
Proof. reflexivity. Qed.

Lemma sleep_total_app (l1 l2 : list event) :
  sleep_total (l1 ++ l2) == sleep_total l1 + sleep_total l2.
Proof.
  induction l1 as [|e l1 IH].
  - change (sleep_total []) with 0. cbn [app]. ring.
  - cbn [app]. rewrite !sleep_total_cons, IH. ring.
Qed.

Lemma Qsum_snoc (l : list Q) (a : Q) : Qsum (l ++ [a]) == Qsum l + a.
Proof.
  unfold Qsum. induction l as [|b l IH]; cbn [app foldr]; [ring|].
  rewrite IH. ring.
Qed.

Lemma time_grid_step (i : nat) :
  (S i < total_points)%nat ->
  exists s t, time_grid !! i = Some s /\ time_grid !! S i = Some t /\
              t - s == 6 # 119.
Proof.
  intros Hi.
  destruct (linspace_lookup 0 6 total_points i) as (s & Hs & Es);
    [unfold total_points; lia|lia|].
  destruct (linspace_lookup 0 6 total_points (S i)) as (t & Ht & Et);
    [unfold total_points; lia|lia|].
  exists s, t. split; [exact Hs|]. split; [exact Ht|].
  rewrite Es, Et. change (of_nat (total_points - 1)) with (119 # 1).
  unfold of_nat. rewrite Nat2Z.inj_succ, <- Z.add_1_r, inject_Z_plus.
  change (inject_Z 1) with 1. field.
Qed.

Section RunFacts.

Variable exp : Q -> Q.
Variable G : Type.
Variable rand : G -> Q * G.
Variable normal : Q -> Q -> G -> Q * G.
Variable fvc_pred : Q.
Variable g : G.

Local Abbreviation fv := (flow_value exp rand normal fvc_pred g).
Local Abbreviation fpre := (flow_prefix exp rand normal fvc_pred g).
Local Abbreviation vv := (volume_value exp rand normal fvc_pred g).
Local Abbreviation ev := (events_of exp rand normal fvc_pred g).
Local Abbreviation run := (breath_loop exp rand normal fvc_pred g).

Lemma volume_value_pos (i : nat) :
  (0 < i)%nat -> vv i = trapz (fpre (i + 1)) (take (i + 1) time_grid).
Proof.
  intros Hi. unfold volume_value. apply Nat.ltb_lt in Hi. now rewrite Hi.
Qed.

Lemma flow_prefix_SS (k : nat) :
  fpre (S k + 1) = fpre k ++ [fv k; fv (S k)].
Proof.
  rewrite (flow_prefix_S exp G rand normal fvc_pred g (S k)), <- (Nat.add_1_r k).
  rewrite (flow_prefix_S exp G rand normal fvc_pred g k), <- app_assoc. reflexivity.
Qed.

(** X6.  Every iteration of the loop finds both arrays with [total_points]
    entries, so the index [i] it reads and writes in [t], [flow] and
    [volume] is in range, and the two slices it hands to [np.trapz] have
    the same number of elements, [i + 1]. *)
Theorem loop_indices_in_range (k : nat) :
  (k < total_points)%nat ->
  let st := loop_state exp rand normal fvc_pred g k in
  loop_state exp rand normal fvc_pred g (S k) =
    body exp normal time_grid
         (peak_flow_of rand fvc_pred g) (decay_of rand g) st k /\
  length time_grid = total_points /\
  length (flow st) = total_points /\
  length (volume st) = total_points /\
  length (take (k + 1) (flow st)) = (k + 1)%nat /\
  length (take (k + 1) time_grid) = (k + 1)%nat.
Proof.
  intros Hk st.
  assert (Hflow : length (flow st) = total_points).
  { subst st. rewrite loop_state_closed by lia. unfold closed_state.
    cbn [flow]. unfold zeros.
    rewrite length_app, length_flow_prefix, length_replicate. lia. }
  split.
  - unfold loop_state at 1. rewrite seq_S, fold_left_app. reflexivity.
  - split; [apply length_time_grid|]. split; [exact Hflow|]. split.
    + subst st. rewrite loop_state_closed by lia. unfold closed_state.
      cbn [volume]. unfold zeros.
      rewrite length_app, length_map, length_seq, length_replicate. lia.
    + split; apply length_take_le; rewrite ?Hflow, ?length_time_grid; lia.
Qed.

(** X7.  A run draws from the generator exactly twice with [rand()] and then
    [total_points] = 120 times with [normal(0, 0.03)], in this order: the
    generator is left in the state these draws lead to. *)
Theorem generator_consumption :
  rng (breath_loop exp rand normal fvc_pred g) =
  Nat.iter 120 (fun g' => snd (normal 0 0.03 g')) (snd (rand (snd (rand g)))).
Proof. rewrite breath_loop_closed. reflexivity. Qed.

Lemma measure_volume_samples :
  measure run = (get (volume run) 119, get (volume run) 19).
Proof.
  unfold measure.
  change (Z.to_nat (py_int (of_nat total_points / 6))) with 20%nat.
  rewrite volume_closed, flow_closed.
  rewrite !get_volume_values by (unfold total_points; lia).
  rewrite !volume_value_pos by lia.
  change (119 + 1)%nat with total_points. change (19 + 1)%nat with 20%nat.
  rewrite take_flow_prefix by (unfold total_points; lia).
  rewrite (take_ge time_grid total_points)
    by (rewrite length_time_grid; lia).
  reflexivity.
Qed.

Lemma volume_step (i : nat) :
  (S i < total_points)%nat ->
  get (volume run) (S i)
  == get (volume run) i
     + (6 # 119) * ((get (flow run) i + get (flow run) (S i)) / 2).
Proof.
  intros Hi. rewrite volume_closed, flow_closed.
  rewrite !get_volume_values, !get_flow_prefix by lia.
  rewrite (volume_value_pos (S i)) by lia.
  rewrite trapz_trapezoid_rule,
    (volume_value_trapezoid exp G rand normal fvc_pred g i).
  destruct (time_grid_step i Hi) as (s & t & Hs & Ht & Est).
  rewrite flow_prefix_SS, (flow_prefix_S exp G rand normal fvc_pred g i).
  rewrite !Nat.add_1_r.
  rewrite (take_S_r _ _ _ Ht), (take_S_r _ _ _ Hs), <- app_assoc.
  cbn [app]. rewrite trapezoid_rule_snoc.
  - rewrite Est. reflexivity.
  - rewrite length_flow_prefix, length_take_le;
      [reflexivity|rewrite length_time_grid; lia].
Qed.

Lemma volume_scaled_sum (k : nat) :
  (k < total_points)%nat ->
  get (volume run) k
  == (6 # 119) * (Qsum (take (k + 1) (flow run))
                  - (get (flow run) 0 + get (flow run) k) / 2).
Proof.
  induction k as [|k IH]; intros Hk.
  - rewrite volume_closed, flow_closed.
    rewrite get_volume_values, get_flow_prefix by exact Hk.
    rewrite take_flow_prefix by (unfold total_points; lia).
    change (vv 0) with 0. change (fpre (0 + 1)) with [fv 0].
    cbn [Qsum foldr]. field.
  - rewrite (volume_step k Hk), IH by lia.
    rewrite flow_closed.
    rewrite !take_flow_prefix by lia.
    rewrite !get_flow_prefix by lia.
    rewrite (flow_prefix_S exp G rand normal fvc_pred g (S k)).
    rewrite Qsum_snoc, Nat.add_1_r. field.
Qed.

(** X8.  The two measured values are samples of the volume curve:
    [fvc_measured] is the last volume sample and [fev1_measured] is the
    volume sample of index 19, whose time is 114/119 s, short of the
    1-second mark. *)
Theorem measures_are_volume_samples (fev1_pred : Q) :
  simulate_breath exp rand normal fvc_pred fev1_pred g =
    (get (volume run) 119, get (volume run) 19) /\
  get time_grid 19 == 114 # 119 /\
  get time_grid 19 < 1 /\
  get time_grid 119 == 6.
Proof.
  split; [|split; [|split]]; [|vm_compute; reflexivity ..].
  unfold simulate_breath. apply measure_volume_samples.
Qed.

(** X9.  The volume curve is a running sum: each volume sample is the
    previous one plus the area of one trapezoid of width 6/119 s under
    the two neighbouring flow samples. *)
Theorem volume_running_sum (i : nat) :
  (S i < total_points)%nat ->
  get (volume run) (S i)
  == get (volume run) i
     + (6 # 119) * ((get (flow run) i + get (flow run) (S i)) / 2).
Proof. exact (volume_step i). Qed.

(** X10.  On the evenly spaced time grid the integrals are plain sums: each
    measured value is the step 6/119 s times the sum of the flow samples
    it covers, the first and the last of them counted half. *)
Theorem measures_are_scaled_sums (fev1_pred : Q) :
  fst (simulate_breath exp rand normal fvc_pred fev1_pred g)
  == (6 # 119) * (Qsum (flow run)
                  - (get (flow run) 0 + get (flow run) 119) / 2) /\
  snd (simulate_breath exp rand normal fvc_pred fev1_pred g)
  == (6 # 119) * (Qsum (take 20 (flow run))
                  - (get (flow run) 0 + get (flow run) 19) / 2).
Proof.
  unfold simulate_breath. rewrite measure_volume_samples. cbn [fst snd].
  rewrite !volume_scaled_sum by (unfold total_points; lia).
  change (119 + 1)%nat with total_points. change (19 + 1)%nat with 20%nat.
  rewrite (take_ge (flow run) total_points); [split; reflexivity|].
  rewrite flow_closed, length_flow_prefix. lia.
Qed.

(** X11.  The measured values are the predicted FVC times the integral of a
    curve that does not depend on the patient, plus the integral of the
    noise: [fvc_pred] enters the measurement only as this scale factor,
    and [fev1_pred] does not enter it at all. *)
Theorem measures_scale_with_fvc_pred (fev1_pred : Q) :
  let shape := map (shape_value exp rand g) (seq 0 total_points) in
  let noise := map (noise_at rand normal g) (seq 0 total_points) in
  fst (simulate_breath exp rand normal fvc_pred fev1_pred g)
  == fvc_pred * trapezoid_rule shape time_grid
     + trapezoid_rule noise time_grid /\
  snd (simulate_breath exp rand normal fvc_pred fev1_pred g)
  == fvc_pred * trapezoid_rule (take 20 shape) (take 20 time_grid)
     + trapezoid_rule (take 20 noise) (take 20 time_grid).
Proof.
  intros shape noise.
  assert (Hfv : forall i, fv i == fvc_pred * shape_value exp rand g i
                                  + noise_at rand normal g i).
  { intros i. unfold flow_value, shape_value, peak_flow_of. ring. }
  assert (Htake : forall (f : nat -> Q),
             take 20 (map f (seq 0 total_points)) = map f (seq 0 20)).
  { intros f. change total_points with (20 + 100)%nat.
    rewrite seq_app, map_app. apply take_prefix.
    now rewrite length_map, length_seq. }
  unfold simulate_breath, measure. cbn [fst snd].
  change (Z.to_nat (py_int (of_nat total_points / 6))) with 20%nat.
  rewrite flow_closed, !trapz_trapezoid_rule. subst shape noise.
  rewrite !Htake. unfold flow_prefix at 2. rewrite Htake.
  unfold flow_prefix.
  split; apply trapezoid_rule_superpose; exact Hfv.
Qed.

Lemma sleep_total_events (l : list nat) :
  sleep_total (flat_map ev l) == of_nat (length l) * 0.02.
Proof.
  induction l as [|i l IH]; [reflexivity|].
  cbn [flat_map length]. rewrite sleep_total_app, IH.
  assert (E : sleep_total (ev i) == 0.02).
  { unfold events_of. now destruct (i mod 20 =? 0)%nat. }
  rewrite E. unfold of_nat.
  rewrite Nat2Z.inj_succ, <- Z.add_1_r, inject_Z_plus.
  change (inject_Z 1) with 1. ring.
Qed.

(** X12.  A run pauses 20 ms after each of its 120 redraws and nowhere else:
    2.4 s of sleep in total, whatever the input. *)
Theorem run_sleeps_2400_ms :
  sleep_total (log run) == 2.4 /\
  length (List.filter is_draw (log run)) = 120%nat.
Proof.
  rewrite log_closed. split.
  - change (AxClear :: flat_map ev (seq 0 total_points))
      with ([AxClear] ++ flat_map ev (seq 0 total_points)).
    rewrite sleep_total_app, sleep_total_events, length_seq. reflexivity.
  - rewrite (filter_cons_false is_draw AxClear _ eq_refl).
    rewrite filter_flat_map, (flat_map_ext _ _ (draw_events exp G rand normal fvc_pred g)).
    rewrite (flat_map_singleton (fun _ => CanvasDraw)), length_map.
    apply length_seq.
Qed.

End RunFacts.

Lemma loop_indices_in_range_witness :
  (119 < total_points)%nat /\
  length (flow (loop_state (fun _ => 1) (fun u : unit => (0.5, u))
                           (fun _ _ (u : unit) => (0, u)) 4.58 tt 119))
  = total_points.
Proof.
  assert (H : (119 < total_points)%nat) by (unfold total_points; lia).
  split; [exact H|].
  exact (proj1 (proj2 (proj2
           (loop_indices_in_range (fun _ => 1) unit (fun u => (0.5, u))
              (fun _ _ u => (0, u)) 4.58 tt 119 H)))).
Defined.

Lemma volume_running_sum_witness :
  let st := breath_loop (fun _ => 1) (fun u : unit => (0.5, u))
                        (fun _ _ (u : unit) => (0, u)) 4.58 tt in
  (1 < total_points)%nat /\
  get (volume st) 1
  == get (volume st) 0 + (6 # 119) * ((get (flow st) 0 + get (flow st) 1) / 2).
Proof.
  assert (H : (1 < total_points)%nat) by (unfold total_points; lia).
  split; [exact H|].
  exact (volume_running_sum (fun _ => 1) unit (fun u => (0.5, u))
           (fun _ _ u => (0, u)) 4.58 tt 0 H).
Defined.

(** ** From the predictor to the simulator *)

(** X13.  When the two uniform draws lie in [0, 1), as [rand()] promises, the
    peak flow of a run lies between 0.8 and 1.2 times the predicted FVC
    and the decay rate between 2.5 and 3.5; fed with a prediction of the
    predictor, the peak flow is therefore at least 1.2 L/s. *)
Theorem draw_shape_ranges
    (G : Type) (rand : G -> Q * G) (g : G)
    (age height : Q) (sex : string) (smoker : bool) :
  0 <= draw_U rand g < 1 ->
  0 <= draw_U2 rand g < 1 ->
  let fvc_pred := fst (calculate_spirometry age height sex smoker) in
  exists peak_flow decay g2,
    draw_shape rand fvc_pred g = (peak_flow, decay, g2) /\
    1.2 <= peak_flow /\
    0.8 * fvc_pred <= peak_flow < 1.2 * fvc_pred /\
    2.5 <= decay < 3.5.
Proof.
  intros HU HU2 fvc_pred.
  assert (Hf : 1.5 <= fvc_pred).
  { subst fvc_pred. rewrite calculate_spirometry_unfold. cbn [fst].
    apply py_max_lower_bound. }
  unfold draw_shape, draw_U, draw_U2 in *.
  destruct (rand g) as [u g1]. cbn [fst snd] in *.
  destruct (rand g1) as [u2 g2]. cbn [fst snd] in *.
  eexists _, _, _. split; [reflexivity|].
  assert (Hp : 0 <= fvc_pred * u).
  { apply Qmult_le_0_compat; lra. }
  assert (Hq : fvc_pred * u < fvc_pred * 1).
  { apply Qmult_lt_l; lra. }
  repeat split; try lra.
Qed.

Lemma draw_shape_ranges_witness :
  0 <= draw_U (fun u : unit => (0.5, u)) tt < 1 /\
  exists peak_flow decay g2,
    draw_shape (fun u : unit => (0.5, u))
               (fst (calculate_spirometry 30 170 "Male" false)) tt
    = (peak_flow, decay, g2) /\
    1.2 <= peak_flow.
Proof.
  assert (H : 0 <= draw_U (fun u : unit => (0.5, u)) tt < 1)
    by (split; vm_compute; [discriminate|reflexivity]).
  split; [exact H|].
  destruct (draw_shape_ranges unit (fun u => (0.5, u)) tt 30 170 "Male" false
              H H) as (p & d & g2 & E & Hp & _).
  exists p, d, g2. split; [exact E|exact Hp].
Defined.
